(** * Shallow embedding of prefect/tasks/mysql/mysql.py

    The two tasks [MySQLExecute] and [MySQLFetch] are modelled as programs in
    a small state-and-exception monad.  The state is the trace of the calls
    made to the database driver (pymysql) and to the debug logger; every
    driver call is an event of the trace, and its outcome (a value or a raised
    exception) is read from a [driver] record, which stands for the behaviour
    of the external pymysql library during one task run. *)

From Stdlib Require Import String Ascii List ZArith Bool Lia.
Import ListNotations.
Open Scope string_scope.
Open Scope Z_scope.

(** ** Python values *)

(** The Python exceptions that can reach the caller: the [ValueError] and
    [TypeError] raised by the tasks themselves, and the exceptions of the
    driver ([pymysql.MySQLError] and its subclasses, or any other exception
    the driver raises), identified by a name. *)
Inductive err : Type :=
| ValueError (msg : string)
| TypeError (msg : string)
| DriverError (name : string).

(** Callable values a caller can pass as [cursor_type]: the two classes of
    [pymysql.cursors] the task knows, or any other callable (a user defined
    cursor class, a function, ...), given by its [str()]. *)
Inductive callable : Type :=
| CCursor          (* pymysql.cursors.Cursor *)
| CDictCursor      (* pymysql.cursors.DictCursor *)
| COther (repr : string).

(** [cursor_type : Union[str, Callable]]. *)
Inductive cursor_type_val : Type :=
| CTStr (s : string)
| CTCall (c : callable).

Definition callable_eqb (a b : callable) : bool :=
  match a, b with
  | CCursor, CCursor => true
  | CDictCursor, CDictCursor => true
  | COther x, COther y => String.eqb x y
  | _, _ => false
  end.

(** [str(c)] of a callable, as the f-string of the [TypeError] prints it. *)
Definition callable_str (c : callable) : string :=
  match c with
  | CCursor => "<class 'pymysql.cursors.Cursor'>"
  | CDictCursor => "<class 'pymysql.cursors.DictCursor'>"
  | COther r => r
  end.

Definition py_str_cursor_type (v : cursor_type_val) : string :=
  match v with
  | CTStr s => s
  | CTCall c => callable_str c
  end.

(** [str.lower] on the code points U+0000..U+00FF a [string] holds: ASCII
    capitals and the Latin-1 capitals U+00C0..U+00DE (except U+00D7) are
    shifted by 32; every other code point is left as it is. *)
Definition lower_char (c : ascii) : ascii :=
  let n := nat_of_ascii c in
  if ((65 <=? n) && (n <=? 90))%nat
     || ((192 <=? n) && (n <=? 222) && negb (n =? 215))%nat
  then ascii_of_nat (n + 32)
  else c.

Fixpoint py_lower (s : string) : string :=
  match s with
  | EmptyString => EmptyString
  | String c s' => String (lower_char c) (py_lower s')
  end.

(** Rows as the driver returns them: a sequence of column values (a tuple for
    [Cursor]; for [DictCursor] the column names are carried along). *)
Definition row := list (string * string).

(** What [MySQLFetch.run] returns: the result of [fetchone()] (a row or
    [None]) or of [fetchmany]/[fetchall] (a sequence of rows). *)
Inductive fetch_result : Type :=
| FOne (r : option row)
| FRows (rs : list row).

(** The argument printed by a [logging.debug] call. *)
Inductive log_arg : Type :=
| LInt (n : Z)
| LFetch (r : fetch_result)
| LErr (e : err).

(** ** Events of the trace *)

Inductive event : Type :=
| EvConnect (host user password db charset : string) (port : Z)
            (cursorclass : option callable)
| EvCursor                   (* conn.cursor() *)
| EvExecute (query : string) (* cursor.execute(query) *)
| EvFetchOne                 (* cursor.fetchone() *)
| EvFetchMany (size : Z)     (* cursor.fetchmany(size) *)
| EvFetchAll                 (* cursor.fetchall() *)
| EvCommit                   (* conn.commit() *)
| EvCursorClose              (* cursor.__exit__, i.e. cursor.close() *)
| EvClose                    (* conn.close() *)
| EvDebug (fmt : string) (arg : log_arg). (* logging.debug(fmt, arg) *)

(** ** The monad: exceptions over a trace *)

Inductive result (A : Type) : Type :=
| Ok (a : A)
| Raise (e : err).
Arguments Ok {A} a.
Arguments Raise {A} e.

Definition M (A : Type) : Type := list event -> result A * list event.

Definition ret {A} (a : A) : M A := fun tr => (Ok a, tr).

Definition raise {A} (e : err) : M A := fun tr => (Raise e, tr).

Definition bind {A B} (m : M A) (k : A -> M B) : M B :=
  fun tr =>
    match m tr with
    | (Ok a, tr') => k a tr'
    | (Raise e, tr') => (Raise e, tr')
    end.

(** [try: m except Exception as e: h(e)] *)
Definition try_except {A} (m : M A) (h : err -> M A) : M A :=
  fun tr =>
    match m tr with
    | (Ok a, tr') => (Ok a, tr')
    | (Raise e, tr') => h e tr'
    end.

(** Record [ev] in the trace; the call returns or raises [out]. *)
Definition call {A} (ev : event) (out : result A) : M A :=
  fun tr => (out, (tr ++ [ev])%list).

Notation "'let*' x ':=' m 'in' k" := (bind m (fun x => k))
  (at level 200, x name, m at level 100, k at level 200).

(** ** The driver *)

(** Outcome of every driver call during one run. *)
Record driver : Type := {
  d_connect : result unit;
  d_cursor : result unit;
  d_execute : string -> result Z;
  d_fetchone : result (option row);
  d_fetchmany : Z -> result (list row);
  d_fetchall : result (list row);
  d_commit : result unit;
  d_cursor_close : result unit;
  d_close : result unit
}.

(** [with conn.cursor() as cursor: body]: pymysql's [Cursor.__exit__] closes
    the cursor and does not swallow the exception; an exception raised while
    closing replaces the one of the body. *)
Definition with_cursor {A} (d : driver) (body : M A) : M A :=
  let* _ := call EvCursor (d_cursor d) in
  let* a := try_except body
              (fun e => let* _ := call EvCursorClose (d_cursor_close d) in
                        raise e) in
  let* _ := call EvCursorClose (d_cursor_close d) in
  ret a.

(** ** Per-call defaults *)

(** Modelled from the spec: [prefect.utilities.tasks.defaults_from_attrs],
    which is not in src/.  "merge call-site arguments over stored
    configuration, call-site wins when the field is explicitly provided";
    [None] is an argument the caller did not provide. *)
Definition resolve {A} (call_arg : option A) (dflt : A) : A :=
  match call_arg with
  | Some v => v
  | None => dflt
  end.

(** ** MySQLExecute *)

Record MySQLExecute : Type := {
  ex_db_name : string;
  ex_user : string;
  ex_password : string;
  ex_host : string;
  ex_port : Z;
  ex_query : option string;
  ex_commit : bool;
  ex_charset : string
}.

(** [MySQLExecute.__init__] with its defaults. *)
Definition mk_execute (db_name user password host : string) : MySQLExecute :=
  {| ex_db_name := db_name; ex_user := user; ex_password := password;
     ex_host := host; ex_port := 3306; ex_query := None;
     ex_commit := false; ex_charset := "utf8mb4" |}.

Definition msg_no_query : string := "A query string must be provided".

Definition execute_run (d : driver) (self : MySQLExecute)
    (query : option string) (commit : option bool) (charset : option string)
    : M Z :=
  let query := resolve (option_map Some query) self.(ex_query) in
  let commit := resolve commit self.(ex_commit) in
  let charset := resolve charset self.(ex_charset) in
  match query with
  | None | Some EmptyString => raise (ValueError msg_no_query)
  | Some q =>
      let* _ := call (EvConnect self.(ex_host) self.(ex_user) self.(ex_password)
                        self.(ex_db_name) self.(ex_charset) self.(ex_port) None)
                     (d_connect d) in
      try_except
        (let* executed :=
           with_cursor d
             (let* executed := call (EvExecute q) (d_execute d q) in
              let* _ := (if commit then call EvCommit (d_commit d) else ret tt) in
              ret executed) in
         let* _ := call EvClose (d_close d) in
         let* _ := call (EvDebug "Execute Results: %s" (LInt executed)) (Ok tt) in
         ret executed)
        (fun e =>
           let* _ := call EvClose (d_close d) in
           let* _ := call (EvDebug "Execute Error: %s" (LErr e)) (Ok tt) in
           raise e)
  end.

(** ** MySQLFetch *)

Record MySQLFetch : Type := {
  f_db_name : string;
  f_user : string;
  f_password : string;
  f_host : string;
  f_port : Z;
  f_fetch : string;
  f_fetch_count : Z;
  f_query : option string;
  f_commit : bool;
  f_charset : string;
  f_cursor_type : cursor_type_val
}.

(** [MySQLFetch.__init__] with its defaults. *)
Definition mk_fetch (db_name user password host : string) : MySQLFetch :=
  {| f_db_name := db_name; f_user := user; f_password := password;
     f_host := host; f_port := 3306; f_fetch := "one"; f_fetch_count := 10;
     f_query := None; f_commit := false; f_charset := "utf8mb4";
     f_cursor_type := CTStr "cursor" |}.

Definition msg_bad_fetch : string :=
  "The 'fetch' parameter must be one of the following - ('one', 'many', 'all')".

Definition msg_bad_cursor_type : string :=
  "'cursor_type' should be one of ('cursor', 'dictcursor') or the callable equivalent, got ".

(** [fetch in {"one", "many", "all"}] *)
Definition fetch_in_set (fetch : string) : bool :=
  String.eqb fetch "one" || String.eqb fetch "many" || String.eqb fetch "all".

(** The dict [cursor_types]. *)
Definition cursor_types : list (string * callable) :=
  [("cursor", CCursor); ("dictcursor", CDictCursor)].

(** [dict.get] *)
Fixpoint dict_get (k : string) (l : list (string * callable)) : option callable :=
  match l with
  | [] => None
  | (k', v) :: l' => if String.eqb k k' then Some v else dict_get k l'
  end.

(** [c in cursor_types.values()] *)
Definition in_values (c : callable) (l : list (string * callable)) : bool :=
  existsb (fun kv => callable_eqb (snd kv) c) l.

Definition fetch_run (d : driver) (self : MySQLFetch)
    (query : option string) (fetch : option string) (fetch_count : option Z)
    (commit : option bool) (charset : option string)
    (cursor_type : option cursor_type_val) : M fetch_result :=
  let fetch := resolve fetch self.(f_fetch) in
  let fetch_count := resolve fetch_count self.(f_fetch_count) in
  let query := resolve (option_map Some query) self.(f_query) in
  let commit := resolve commit self.(f_commit) in
  let charset := resolve charset self.(f_charset) in
  let cursor_type := resolve cursor_type self.(f_cursor_type) in
  match query with
  | None | Some EmptyString => raise (ValueError msg_no_query)
  | Some q =>
    if negb (fetch_in_set fetch) then raise (ValueError msg_bad_fetch) else
    let cursor_class :=
      match cursor_type with
      | CTCall c => Some c          (* callable(cursor_type) *)
      | CTStr s => dict_get (py_lower s) cursor_types
      end in
    match cursor_class with
    | Some c =>
      if negb (in_values c cursor_types)
      then raise (TypeError (msg_bad_cursor_type ++ py_str_cursor_type cursor_type))
      else
      let* _ := call (EvConnect self.(f_host) self.(f_user) self.(f_password)
                        self.(f_db_name) self.(f_charset) self.(f_port) (Some c))
                     (d_connect d) in
      try_except
        (let* results :=
           with_cursor d
             (let* _ := call (EvExecute q) (d_execute d q) in
              let* results :=
                (if String.eqb fetch "all" then
                   let* rs := call EvFetchAll (d_fetchall d) in ret (FRows rs)
                 else if String.eqb fetch "many" then
                   let* rs := call (EvFetchMany fetch_count) (d_fetchmany d fetch_count) in
                   ret (FRows rs)
                 else
                   let* r := call EvFetchOne (d_fetchone d) in ret (FOne r)) in
              let* _ := (if commit then call EvCommit (d_commit d) else ret tt) in
              ret results) in
         let* _ := call EvClose (d_close d) in
         let* _ := call (EvDebug "Fetch Results: %s" (LFetch results)) (Ok tt) in
         ret results)
        (fun e =>
           let* _ := call EvClose (d_close d) in
           let* _ := call (EvDebug "Fetch Error: %s" (LErr e)) (Ok tt) in
           raise e)
    | None => raise (TypeError (msg_bad_cursor_type ++ py_str_cursor_type cursor_type))
    end
  end.

(** ** Observations on traces *)

Definition err_of {A} (r : result A) : option err :=
  match r with
  | Ok _ => None
  | Raise e => Some e
  end.

(** The exception the driver raises for a recorded call, if any. *)
Definition op_error (d : driver) (ev : event) : option err :=
  match ev with
  | EvConnect _ _ _ _ _ _ _ => err_of (d_connect d)
  | EvCursor => err_of (d_cursor d)
  | EvExecute q => err_of (d_execute d q)
  | EvFetchOne => err_of (d_fetchone d)
  | EvFetchMany n => err_of (d_fetchmany d n)
  | EvFetchAll => err_of (d_fetchall d)
  | EvCommit => err_of (d_commit d)
  | EvCursorClose => err_of (d_cursor_close d)
  | EvClose => err_of (d_close d)
  | EvDebug _ _ => None
  end.

(** The exceptions raised by the driver calls of a trace, in order. *)
Definition failures (d : driver) (tr : list event) : list err :=
  flat_map (fun ev => match op_error d ev with Some e => [e] | None => [] end) tr.

Definition is_connect (ev : event) : bool :=
  match ev with EvConnect _ _ _ _ _ _ _ => true | _ => false end.
Definition is_execute (ev : event) : bool :=
  match ev with EvExecute _ => true | _ => false end.
Definition is_fetch (ev : event) : bool :=
  match ev with EvFetchOne | EvFetchMany _ | EvFetchAll => true | _ => false end.
Definition is_commit (ev : event) : bool :=
  match ev with EvCommit => true | _ => false end.
Definition is_close (ev : event) : bool :=
  match ev with EvClose => true | _ => false end.
Definition is_debug (ev : event) : bool :=
  match ev with EvDebug _ _ => true | _ => false end.
Definition is_cursor (ev : event) : bool :=
  match ev with EvCursor => true | _ => false end.
Definition is_cursor_close (ev : event) : bool :=
  match ev with EvCursorClose => true | _ => false end.

Definition count_ev (p : event -> bool) (tr : list event) : nat :=
  length (filter p tr).

Fixpoint index_of (p : event -> bool) (tr : list event) : option nat :=
  match tr with
  | [] => None
  | ev :: tr' =>
      if p ev then Some 0%nat
      else match index_of p tr' with Some i => Some (S i) | None => None end
  end.

(** The first event satisfying [p1] comes before the first satisfying [p2]. *)
Definition before (p1 p2 : event -> bool) (tr : list event) : bool :=
  match index_of p1 tr, index_of p2 tr with
  | Some i, Some j => (i <? j)%nat
  | _, _ => false
  end.

Definition last_event (tr : list event) : option event :=
  match rev tr with [] => None | ev :: _ => Some ev end.

(** [not query] on the resolved query. *)
Definition query_missing (q : option string) : bool :=
  match q with
  | None | Some EmptyString => true
  | Some _ => false
  end.

(** The exception of the driver call selected by the fetch mode. *)
Definition fetch_op_error (d : driver) (fetch : string) (n : Z) : option err :=
  if String.eqb fetch "all" then err_of (d_fetchall d)
  else if String.eqb fetch "many" then err_of (d_fetchmany d n)
  else err_of (d_fetchone d).

(** The row shapes the spec names: the strings "cursor" and "dictcursor" in
    any case, and the two built-in cursor classes. *)
Definition recognized_cursor_type (v : cursor_type_val) : bool :=
  match v with
  | CTStr s => String.eqb (py_lower s) "cursor" || String.eqb (py_lower s) "dictcursor"
  | CTCall c => callable_eqb c CCursor || callable_eqb c CDictCursor
  end.

(** The cursor class a recognised [cursor_type] stands for. *)
Definition expected_cursor_class (v : cursor_type_val) : callable :=
  match v with
  | CTStr s => if String.eqb (py_lower s) "cursor" then CCursor else CDictCursor
  | CTCall c => c
  end.

(** ** The two phases of a run

    Each [run] first checks its arguments, then connects and runs its [try]
    block.  The two phases are named here so that proofs about the driver
    calls need not repeat the checks; [execute_run_split] and
    [fetch_run_split] show that [run] is exactly the first followed by the
    second. *)

Definition execute_connected (d : driver) (self : MySQLExecute) (q : string)
    (commit : bool) : M Z :=
  let* _ := call (EvConnect self.(ex_host) self.(ex_user) self.(ex_password)
                    self.(ex_db_name) self.(ex_charset) self.(ex_port) None)
                 (d_connect d) in
  try_except
    (let* executed :=
       with_cursor d
         (let* executed := call (EvExecute q) (d_execute d q) in
          let* _ := (if commit then call EvCommit (d_commit d) else ret tt) in
          ret executed) in
     let* _ := call EvClose (d_close d) in
     let* _ := call (EvDebug "Execute Results: %s" (LInt executed)) (Ok tt) in
     ret executed)
    (fun e =>
       let* _ := call EvClose (d_close d) in
       let* _ := call (EvDebug "Execute Error: %s" (LErr e)) (Ok tt) in
       raise e).

(** The checks of [MySQLFetch.run], in their order: the query text and the
    cursor class to connect with, or the exception raised. *)
Definition fetch_checks (self : MySQLFetch) (query fetch : option string)
    (cursor_type : option cursor_type_val) : err + (string * callable) :=
  let fetch := resolve fetch self.(f_fetch) in
  let query := resolve (option_map Some query) self.(f_query) in
  let cursor_type := resolve cursor_type self.(f_cursor_type) in
  match query with
  | None | Some EmptyString => inl (ValueError msg_no_query)
  | Some q =>
    if negb (fetch_in_set fetch) then inl (ValueError msg_bad_fetch) else
    let cursor_class :=
      match cursor_type with
      | CTCall c => Some c
      | CTStr s => dict_get (py_lower s) cursor_types
      end in
    match cursor_class with
    | Some c =>
      if negb (in_values c cursor_types)
      then inl (TypeError (msg_bad_cursor_type ++ py_str_cursor_type cursor_type))
      else inr (q, c)
    | None => inl (TypeError (msg_bad_cursor_type ++ py_str_cursor_type cursor_type))
    end
  end.

Definition fetch_connected (d : driver) (self : MySQLFetch) (q fetch : string)
    (fetch_count : Z) (commit : bool) (c : callable) : M fetch_result :=
  let* _ := call (EvConnect self.(f_host) self.(f_user) self.(f_password)
                    self.(f_db_name) self.(f_charset) self.(f_port) (Some c))
                 (d_connect d) in
  try_except
    (let* results :=
       with_cursor d
         (let* _ := call (EvExecute q) (d_execute d q) in
          let* results :=
            (if String.eqb fetch "all" then
               let* rs := call EvFetchAll (d_fetchall d) in ret (FRows rs)
             else if String.eqb fetch "many" then
               let* rs := call (EvFetchMany fetch_count) (d_fetchmany d fetch_count) in
               ret (FRows rs)
             else
               let* r := call EvFetchOne (d_fetchone d) in ret (FOne r)) in
          let* _ := (if commit then call EvCommit (d_commit d) else ret tt) in
          ret results) in
     let* _ := call EvClose (d_close d) in
     let* _ := call (EvDebug "Fetch Results: %s" (LFetch results)) (Ok tt) in
     ret results)
    (fun e =>
       let* _ := call EvClose (d_close d) in
       let* _ := call (EvDebug "Fetch Error: %s" (LErr e)) (Ok tt) in
       raise e).

(** ** A driver for concrete runs *)

Definition sample_row (n : string) : row := [("id", n)].

Definition ok_driver : driver := {|
  d_connect := Ok tt;
  d_cursor := Ok tt;
  d_execute := fun _ => Ok 1;
  d_fetchone := Ok (Some (sample_row "1"));
  d_fetchmany := fun n => Ok (if n <=? 0 then [] else [sample_row "1"]);
  d_fetchall := Ok [sample_row "1"; sample_row "2"];
  d_commit := Ok tt;
  d_cursor_close := Ok tt;
  d_close := Ok tt
|}.

(** [cursor.execute] raises, e.g. on malformed SQL. *)
Definition exec_fail_driver : driver :=
  {| d_connect := Ok tt; d_cursor := Ok tt;
     d_execute := fun _ => Raise (DriverError "ProgrammingError");
     d_fetchone := Ok None; d_fetchmany := fun _ => Ok []; d_fetchall := Ok [];
     d_commit := Ok tt; d_cursor_close := Ok tt; d_close := Ok tt |}.

(** [pymysql.connect] raises, e.g. when the server cannot be reached. *)
Definition connect_fail_driver : driver :=
  {| d_connect := Raise (DriverError "OperationalError"); d_cursor := Ok tt;
     d_execute := fun _ => Ok 0; d_fetchone := Ok None; d_fetchmany := fun _ => Ok [];
     d_fetchall := Ok []; d_commit := Ok tt; d_cursor_close := Ok tt; d_close := Ok tt |}.

(** [conn.close] raises. *)
Definition close_fail_driver : driver :=
  {| d_connect := Ok tt; d_cursor := Ok tt; d_execute := fun _ => Ok 0;
     d_fetchone := Ok None; d_fetchmany := fun _ => Ok []; d_fetchall := Ok [];
     d_commit := Ok tt; d_cursor_close := Ok tt;
     d_close := Raise (DriverError "InterfaceError") |}.

Definition exec_task : MySQLExecute := mk_execute "db" "user" "pw" "localhost".
Definition fetch_task : MySQLFetch := mk_fetch "db" "user" "pw" "localhost".

Example execute_sample :
  execute_run ok_driver exec_task (Some "DELETE FROM t WHERE id=1") (Some true) None []
  = (Ok 1,
     [EvConnect "localhost" "user" "pw" "db" "utf8mb4" 3306 None; EvCursor;
      EvExecute "DELETE FROM t WHERE id=1"; EvCommit; EvCursorClose; EvClose;
      EvDebug "Execute Results: %s" (LInt 1)]).
Proof. reflexivity. Qed.

Example fetch_sample :
  fst (fetch_run ok_driver fetch_task (Some "SELECT id FROM t") (Some "many") (Some 2)
         None None (Some (CTStr "DictCursor")) [])
  = Ok (FRows [sample_row "1"]).
Proof. reflexivity. Qed.

Example fetch_sample_bad_cursor :
  fetch_run ok_driver fetch_task (Some "SELECT 1") None None None None
    (Some (CTStr "ssCursor")) []
  = (Raise (TypeError (msg_bad_cursor_type ++ "ssCursor")), []).
Proof. reflexivity. Qed.

(** ** Case analysis over the driver's outcomes *)

Ltac unfold_run :=
  unfold execute_run, fetch_run, with_cursor, bind, ret, raise, try_except, call,
         resolve in *.

Ltac split_outcomes :=
  repeat (simpl in *;
    match goal with
    | |- context [match ?x with Ok _ => _ | Raise _ => _ end] => destruct x
    | H : context [match ?x with Ok _ => _ | Raise _ => _ end] |- _ => destruct x
    | H : context [match ?x with Some _ => _ | None => _ end] |- _ => destruct x eqn:?
    | H : context [match ?x with CTStr _ => _ | CTCall _ => _ end] |- _ => destruct x
    | H : context [match ?x with CCursor => _ | CDictCursor => _ | COther _ => _ end] |- _ =>
        destruct x
    | |- context [if ?b then _ else _] =>
        lazymatch b with
        | context [match _ with _ => _ end] => fail
        | _ => destruct b eqn:?
        end
    | H : context [if ?b then _ else _] |- _ =>
        lazymatch b with
        | context [match _ with _ => _ end] => fail
        | _ => destruct b eqn:?
        end
    end).

(** Case analysis on the goal, keeping each outcome's equation so that every
    later occurrence of the same driver call is rewritten the same way. *)
Ltac rewrite_outcomes :=
  repeat match goal with
  | E : ?x = ?v |- context [?x] =>
      lazymatch v with
      | Ok _ => idtac | Raise _ => idtac | true => idtac | false => idtac
      | Some _ => idtac | None => idtac
      end;
      lazymatch x with
      | Ok _ => fail | Raise _ => fail | true => fail | false => fail
      | Some _ => fail | None => fail
      | _ => rewrite E
      end
  end.

Ltac split_goal :=
  repeat (simpl; rewrite_outcomes;
    match goal with
    | |- context [match ?x with Ok _ => _ | Raise _ => _ end] => destruct x eqn:?
    | |- context [match ?x with Some _ => _ | None => _ end] => destruct x eqn:?
    | |- context [match ?x with CTStr _ => _ | CTCall _ => _ end] => destruct x
    | |- context [match ?x with CCursor => _ | CDictCursor => _ | COther _ => _ end] =>
        destruct x
    | |- context [if ?b then _ else _] =>
        lazymatch b with
        | context [match _ with _ => _ end] => fail
        | _ => destruct b eqn:?
        end
    end).

(** ** Supporting lemmas *)

Lemma execute_run_split :
  forall d self query commit charset tr,
    execute_run d self query commit charset tr
    = match resolve (option_map Some query) self.(ex_query) with
      | None | Some EmptyString => (Raise (ValueError msg_no_query), tr)
      | Some q => execute_connected d self q (resolve commit self.(ex_commit)) tr
      end.
Proof.
  intros. unfold execute_run.
  destruct (resolve (option_map Some query) (ex_query self)) as [[|ch s]|]; reflexivity.
Qed.

Lemma fetch_run_split :
  forall d self query fetch fc commit charset ct tr,
    fetch_run d self query fetch fc commit charset ct tr
    = match fetch_checks self query fetch ct with
      | inl e => (Raise e, tr)
      | inr (q, c) =>
          fetch_connected d self q (resolve fetch self.(f_fetch))
            (resolve fc self.(f_fetch_count)) (resolve commit self.(f_commit)) c tr
      end.
Proof.
  intros. unfold fetch_run, fetch_checks. cbv zeta.
  destruct (resolve (option_map Some query) (f_query self)) as [[|ch s]|];
    try reflexivity.
  destruct (fetch_in_set (resolve fetch (f_fetch self))); try reflexivity.
  destruct (resolve ct (f_cursor_type self)) as [s'|c];
    [destruct (dict_get (py_lower s') cursor_types) as [c|]|]; try reflexivity;
    destruct c; reflexivity.
Qed.

Lemma fetch_checks_ok :
  forall self query fetch ct q c,
    fetch_checks self query fetch ct = inr (q, c) ->
    resolve (option_map Some query) self.(f_query) = Some q
    /\ q <> EmptyString /\ fetch_in_set (resolve fetch self.(f_fetch)) = true.
Proof.
  intros self query fetch ct q c H. unfold fetch_checks in H. cbv zeta in H.
  destruct (resolve (option_map Some query) (f_query self)) as [[|ch s]|];
    try discriminate H.
  destruct (fetch_in_set (resolve fetch (f_fetch self))); cbn [negb] in H; [|discriminate H].
  destruct (resolve ct (f_cursor_type self)) as [s'|c'];
    [destruct (dict_get (py_lower s') cursor_types) as [c'|]|]; simpl in H;
    try discriminate H; destruct c'; simpl in H; try discriminate H;
    injection H as <- _; repeat split; congruence.
Qed.

(** A run that gets past the checks connects with one of the two built-in
    cursor classes. *)
Lemma fetch_checks_class :
  forall self query fetch ct q c,
    fetch_checks self query fetch ct = inr (q, c) -> c = CCursor \/ c = CDictCursor.
Proof.
  intros self query fetch ct q c H. unfold fetch_checks in H. cbv zeta in H.
  destruct (resolve (option_map Some query) (f_query self)) as [[|ch s]|];
    try discriminate H.
  destruct (fetch_in_set (resolve fetch (f_fetch self))); cbn [negb] in H; [|discriminate H].
  destruct (resolve ct (f_cursor_type self)) as [s'|c'];
    [destruct (dict_get (py_lower s') cursor_types) as [c'|]|]; simpl in H;
    try discriminate H; destruct c'; simpl in H; try discriminate H;
    injection H as _ <-; auto.
Qed.

(** With a query, a valid fetch mode and a recognised cursor type the checks
    pass, and the class is the one the cursor type stands for. *)
Lemma fetch_checks_recognized :
  forall self query fetch ct,
    query_missing (resolve (option_map Some query) self.(f_query)) = false ->
    fetch_in_set (resolve fetch self.(f_fetch)) = true ->
    recognized_cursor_type (resolve ct self.(f_cursor_type)) = true ->
    exists q, resolve (option_map Some query) self.(f_query) = Some q
      /\ fetch_checks self query fetch ct
         = inr (q, expected_cursor_class (resolve ct self.(f_cursor_type))).
Proof.
  intros self query fetch ct Hq Hf Hc. unfold fetch_checks. cbv zeta. rewrite Hf.
  destruct (resolve (option_map Some query) (f_query self)) as [[|ch s]|];
    simpl in Hq; try discriminate Hq.
  exists (String ch s). split; [reflexivity|]. cbn [negb].
  destruct (resolve ct (f_cursor_type self)) as [s'|c'].
  - cbn [recognized_cursor_type expected_cursor_class] in Hc |- *.
    destruct (String.eqb (py_lower s') "cursor") eqn:E1.
    + cbn [dict_get cursor_types]. rewrite E1. reflexivity.
    + destruct (String.eqb (py_lower s') "dictcursor") eqn:E2; [|discriminate Hc].
      cbn [dict_get cursor_types]. rewrite E1, E2. reflexivity.
  - destruct c'; simpl in Hc |- *; try discriminate Hc; reflexivity.
Qed.


(** The charset argument of [run] is never read: both runs are independent of
    it. *)
Lemma execute_run_charset_unused :
  forall d self query commit cs tr,
    execute_run d self query commit (Some cs) tr = execute_run d self query commit None tr.
Proof. reflexivity. Qed.

Lemma fetch_run_charset_unused :
  forall d self query fetch fc commit cs ct tr,
    fetch_run d self query fetch fc commit (Some cs) ct tr
    = fetch_run d self query fetch fc commit None ct tr.
Proof. reflexivity. Qed.

(** ** Claims *)

(** C1 (code_bug).  The charset passed to [run] should override the
    constructor's, but both tasks connect with [self.charset]: a task built
    with the default "utf8mb4" and run with [charset="latin1"] connects with
    "utf8mb4". *)
Theorem run_connects_with_constructor_charset :
  hd_error (snd (execute_run ok_driver exec_task (Some "SELECT 1") None
                   (Some "latin1") []))
  = Some (EvConnect "localhost" "user" "pw" "db" "utf8mb4" 3306 None)
  /\ hd_error (snd (fetch_run ok_driver fetch_task (Some "SELECT 1") None None None
                      (Some "latin1") None []))
  = Some (EvConnect "localhost" "user" "pw" "db" "utf8mb4" 3306 (Some CCursor)).
Proof. split; reflexivity. Qed.

(** C3 (corrected), counterexample.  With no query anywhere, the [ValueError]
    carries "A query string must be provided" (capital A), not the message
    "a query string must be provided" of the claim. *)
Lemma no_query_message_counterexample :
  fst (execute_run ok_driver exec_task None None None [])
  <> Raise (ValueError "a query string must be provided").
Proof. vm_compute. discriminate. Qed.

(** C3 (corrected).  For both tasks, when the resolved query is absent or the
    empty string, [run] raises [ValueError("A query string must be provided")]
    and makes no call at all (the trace is unchanged, so no connection). *)
Theorem no_query_raises_value_error :
  (forall d self query commit charset tr,
     query_missing (resolve (option_map Some query) self.(ex_query)) = true ->
     execute_run d self query commit charset tr
     = (Raise (ValueError "A query string must be provided"), tr))
  /\ (forall d self query fetch fc commit charset ct tr,
     query_missing (resolve (option_map Some query) self.(f_query)) = true ->
     fetch_run d self query fetch fc commit charset ct tr
     = (Raise (ValueError "A query string must be provided"), tr)).
Proof.
  split.
  - intros d self query commit charset tr H. unfold execute_run.
    destruct (resolve (option_map Some query) (ex_query self)) as [[|c s]|];
      simpl in H; try discriminate; reflexivity.
  - intros d self query fetch fc commit charset ct tr H. unfold fetch_run.
    destruct (resolve (option_map Some query) (f_query self)) as [[|c s]|];
      simpl in H; try discriminate; reflexivity.
Qed.

Lemma no_query_raises_value_error_witness :
  query_missing (resolve (option_map Some (Some "")) exec_task.(ex_query)) = true
  /\ execute_run ok_driver exec_task (Some "") None None []
     = (Raise (ValueError "A query string must be provided"), [])
  /\ query_missing (resolve (option_map Some None) fetch_task.(f_query)) = true
  /\ fetch_run ok_driver fetch_task None None None None None None []
     = (Raise (ValueError "A query string must be provided"), []).
Proof.
  split; [reflexivity|]. split; [apply (proj1 no_query_raises_value_error); reflexivity|].
  split; [reflexivity|]. apply (proj2 no_query_raises_value_error); reflexivity.
Defined.

(** C10.  Passing the class [pymysql.cursors.Cursor] (resp. [DictCursor]) as
    [cursor_type] gives the same run, outcome and driver calls, as passing the
    string "cursor" (resp. "dictcursor"). *)
Theorem builtin_class_same_as_name :
  forall d self query fetch fc commit charset tr,
    fetch_run d self query fetch fc commit charset (Some (CTCall CCursor)) tr
    = fetch_run d self query fetch fc commit charset (Some (CTStr "cursor")) tr
  /\ fetch_run d self query fetch fc commit charset (Some (CTCall CDictCursor)) tr
    = fetch_run d self query fetch fc commit charset (Some (CTStr "dictcursor")) tr.
Proof.
  intros. unfold fetch_run. simpl.
  destruct (resolve (option_map Some query) (f_query self)) as [[|c s]|];
    split; reflexivity.
Qed.

(** C2 (corrected), counterexample.  A caller-supplied cursor class other
    than the two built-in ones is refused with a [TypeError] and no
    connection is opened. *)
Lemma custom_cursor_class_counterexample :
  fetch_run ok_driver fetch_task (Some "SELECT id FROM t") None None None None
    (Some (CTCall (COther "<class 'app.MyCursor'>"))) []
  = (Raise (TypeError (msg_bad_cursor_type ++ "<class 'app.MyCursor'>")), []).
Proof. reflexivity. Qed.

(** C2 (corrected).  Once the query and fetch checks pass, a callable
    [cursor_type] other than [pymysql.cursors.Cursor] and [DictCursor], such
    as a custom cursor class, makes [run] raise a [TypeError] naming it, before
    any driver call. *)
Theorem custom_callable_rejected :
  forall d self query fetch fc commit charset c tr,
    query_missing (resolve (option_map Some query) self.(f_query)) = false ->
    fetch_in_set (resolve fetch self.(f_fetch)) = true ->
    callable_eqb c CCursor = false -> callable_eqb c CDictCursor = false ->
    fetch_run d self query fetch fc commit charset (Some (CTCall c)) tr
    = (Raise (TypeError (msg_bad_cursor_type ++ callable_str c)), tr).
Proof.
  intros d self query fetch fc commit charset c tr Hq Hf H1 H2.
  unfold fetch_run. simpl. rewrite Hf. simpl.
  destruct (resolve (option_map Some query) (f_query self)) as [[|ch s]|];
    simpl in Hq; try discriminate.
  destruct c; simpl in H1, H2; try discriminate; reflexivity.
Qed.

Lemma custom_callable_rejected_witness :
  query_missing (resolve (option_map Some (Some "SELECT 1")) fetch_task.(f_query)) = false
  /\ fetch_in_set (resolve (Some "all") fetch_task.(f_fetch)) = true
  /\ callable_eqb (COther "MyCursor") CCursor = false
  /\ callable_eqb (COther "MyCursor") CDictCursor = false
  /\ fetch_run ok_driver fetch_task (Some "SELECT 1") (Some "all") None None None
       (Some (CTCall (COther "MyCursor"))) []
     = (Raise (TypeError (msg_bad_cursor_type ++ callable_str (COther "MyCursor"))), []).
Proof.
  do 4 (split; [reflexivity|]).
  apply custom_callable_rejected; reflexivity.
Defined.

(** C4.  Once the query and fetch checks pass (they come first in [run]), a
    [cursor_type] that is neither a string equal to "cursor" or "dictcursor"
    up to case nor one of the two built-in cursor classes makes [run] raise a
    [TypeError] whose message ends with [str(cursor_type)], before any driver
    call. *)
Theorem unrecognized_cursor_type_rejected :
  forall d self query fetch fc commit charset ct tr,
    query_missing (resolve (option_map Some query) self.(f_query)) = false ->
    fetch_in_set (resolve fetch self.(f_fetch)) = true ->
    recognized_cursor_type (resolve ct self.(f_cursor_type)) = false ->
    fetch_run d self query fetch fc commit charset ct tr
    = (Raise (TypeError (msg_bad_cursor_type
                         ++ py_str_cursor_type (resolve ct self.(f_cursor_type)))), tr).
Proof.
  intros d self query fetch fc commit charset ct tr Hq Hf Hc.
  unfold fetch_run. rewrite Hf. simpl.
  destruct (resolve (option_map Some query) (f_query self)) as [[|ch s]|];
    simpl in Hq; try discriminate.
  destruct (resolve ct (f_cursor_type self)) as [s' | c].
  - simpl in Hc. apply orb_false_elim in Hc as [H1 H2]. simpl.
    rewrite H1, H2. reflexivity.
  - destruct c; simpl in Hc; try discriminate; reflexivity.
Qed.

Lemma unrecognized_cursor_type_rejected_witness :
  query_missing (resolve (option_map Some (Some "SELECT 1")) fetch_task.(f_query)) = false
  /\ fetch_in_set (resolve None fetch_task.(f_fetch)) = true
  /\ recognized_cursor_type (resolve (Some (CTStr "SSCursor")) fetch_task.(f_cursor_type)) = false
  /\ fetch_run ok_driver fetch_task (Some "SELECT 1") None None None None
       (Some (CTStr "SSCursor")) []
     = (Raise (TypeError (msg_bad_cursor_type ++ "SSCursor")), []).
Proof.
  do 3 (split; [reflexivity|]).
  apply (unrecognized_cursor_type_rejected ok_driver fetch_task (Some "SELECT 1") None None
           None None (Some (CTStr "SSCursor")) []); reflexivity.
Defined.

(** C5.  The fetch mode is checked after the query: with the query missing,
    [run] raises the query error whatever the fetch mode; with a query, a
    resolved fetch mode outside {"one", "many", "all"} makes [run] raise
    [ValueError] with the message listing exactly those three modes, before
    any driver call. *)
Theorem bad_fetch_mode_rejected :
  forall d self query fetch fc commit charset ct tr,
    (query_missing (resolve (option_map Some query) self.(f_query)) = true ->
     fetch_run d self query fetch fc commit charset ct tr
     = (Raise (ValueError msg_no_query), tr))
    /\ (query_missing (resolve (option_map Some query) self.(f_query)) = false ->
        fetch_in_set (resolve fetch self.(f_fetch)) = false ->
        fetch_run d self query fetch fc commit charset ct tr
        = (Raise (ValueError
             "The 'fetch' parameter must be one of the following - ('one', 'many', 'all')"),
           tr)).
Proof.
  intros d self query fetch fc commit charset ct tr. unfold fetch_run.
  split; intro Hq;
    destruct (resolve (option_map Some query) (f_query self)) as [[|ch s]|];
    simpl in Hq; try discriminate; try reflexivity.
  intro Hf. rewrite Hf. reflexivity.
Qed.

Lemma bad_fetch_mode_rejected_witness :
  fetch_run ok_driver fetch_task None (Some "some") None None None None []
  = (Raise (ValueError msg_no_query), [])
  /\ fetch_run ok_driver fetch_task (Some "SELECT 1") (Some "ONE") None None None None []
     = (Raise (ValueError
          "The 'fetch' parameter must be one of the following - ('one', 'many', 'all')"), []).
Proof.
  split.
  - apply (bad_fetch_mode_rejected ok_driver fetch_task None (Some "some") None None None
             None []); reflexivity.
  - apply (bad_fetch_mode_rejected ok_driver fetch_task (Some "SELECT 1") (Some "ONE") None
             None None None []); reflexivity.
Defined.

Lemma fetch_mode_one :
  forall m, fetch_in_set m = true -> String.eqb m "all" = false ->
            String.eqb m "many" = false -> m = "one".
Proof.
  intros m H Ha Hm. unfold fetch_in_set in H. rewrite Ha, Hm in H.
  rewrite !orb_false_r in H. now apply String.eqb_eq.
Qed.

(** C6.  A successful [MySQLFetch.run] returns the value of exactly one fetch
    call of the driver, selected by the resolved fetch mode: [fetchone()] for
    "one", [fetchmany(fetch_count)] for "many", [fetchall()] for "all". *)
Theorem fetch_result_from_selected_call :
  forall d self query fetch fc commit charset ct v tr,
    fetch_run d self query fetch fc commit charset ct [] = (Ok v, tr) ->
    (resolve fetch self.(f_fetch) = "one" /\ filter is_fetch tr = [EvFetchOne]
     /\ exists r, d_fetchone d = Ok r /\ v = FOne r)
    \/ (resolve fetch self.(f_fetch) = "many"
        /\ filter is_fetch tr = [EvFetchMany (resolve fc self.(f_fetch_count))]
        /\ exists rs, d_fetchmany d (resolve fc self.(f_fetch_count)) = Ok rs
                      /\ v = FRows rs)
    \/ (resolve fetch self.(f_fetch) = "all" /\ filter is_fetch tr = [EvFetchAll]
        /\ exists rs, d_fetchall d = Ok rs /\ v = FRows rs).
Proof.
  intros d self query fetch fc commit charset ct v tr H.
  unfold fetch_run in H.
  destruct (resolve (option_map Some query) (f_query self)) as [[|ch s]|];
    [discriminate H| |discriminate H].
  destruct (fetch_in_set (resolve fetch (f_fetch self))) eqn:Hf; [|discriminate H].
  unfold with_cursor, bind, ret, raise, try_except, call in H. simpl in H.
  split_outcomes; try discriminate H; injection H as <- <-; simpl;
    solve
      [ right; right; split; [now apply String.eqb_eq|]; eauto
      | right; left; split; [now apply String.eqb_eq|]; eauto
      | left; split; [now apply fetch_mode_one|]; eauto ].
Qed.

Lemma fetch_result_from_selected_call_witness :
  fetch_run ok_driver fetch_task (Some "SELECT id FROM t") (Some "many") (Some 2) None None
    (Some (CTStr "dictcursor")) []
  = (Ok (FRows [sample_row "1"]),
     [EvConnect "localhost" "user" "pw" "db" "utf8mb4" 3306 (Some CDictCursor); EvCursor;
      EvExecute "SELECT id FROM t"; EvFetchMany 2; EvCursorClose; EvClose;
      EvDebug "Fetch Results: %s" (LFetch (FRows [sample_row "1"]))])
  /\ resolve (Some "many") fetch_task.(f_fetch) = "many"
  /\ filter is_fetch [EvConnect "localhost" "user" "pw" "db" "utf8mb4" 3306 (Some CDictCursor);
       EvCursor; EvExecute "SELECT id FROM t"; EvFetchMany 2; EvCursorClose; EvClose;
       EvDebug "Fetch Results: %s" (LFetch (FRows [sample_row "1"]))]
     = [EvFetchMany (resolve (Some 2) fetch_task.(f_fetch_count))].
Proof.
  assert (H : fetch_run ok_driver fetch_task (Some "SELECT id FROM t") (Some "many") (Some 2)
                None None (Some (CTStr "dictcursor")) []
              = (Ok (FRows [sample_row "1"]),
                 [EvConnect "localhost" "user" "pw" "db" "utf8mb4" 3306 (Some CDictCursor);
                  EvCursor; EvExecute "SELECT id FROM t"; EvFetchMany 2; EvCursorClose;
                  EvClose; EvDebug "Fetch Results: %s" (LFetch (FRows [sample_row "1"]))]))
    by reflexivity.
  split; [exact H|].
  destruct (fetch_result_from_selected_call _ _ _ _ _ _ _ _ _ _ H)
    as [[Hm _] | [[Hm [Hf _]] | [Hm _]]]; try discriminate Hm.
  split; [exact Hm | exact Hf].
Defined.

(** C7.  For both tasks: when the resolved commit flag is false, [commit()] is
    never called; when it is true and the call opened a connection whose
    execute (and, for [MySQLFetch], the selected fetch) succeeded, [commit()]
    is called exactly once, after the execute and the fetch, and before the
    first [close()]. *)
Theorem commit_once_between_execute_and_close :
  (forall d self query commit charset,
     resolve commit self.(ex_commit) = false ->
     count_ev is_commit (snd (execute_run d self query commit charset [])) = 0%nat)
  /\ (forall d self query commit charset q r tr,
     execute_run d self query commit charset [] = (r, tr) ->
     resolve (option_map Some query) self.(ex_query) = Some q ->
     resolve commit self.(ex_commit) = true ->
     count_ev is_connect tr = 1%nat -> d_connect d = Ok tt ->
     err_of (d_cursor d) = None -> err_of (d_execute d q) = None ->
     count_ev is_commit tr = 1%nat /\ before is_execute is_commit tr = true
     /\ before is_commit is_close tr = true)
  /\ (forall d self query fetch fc commit charset ct,
     resolve commit self.(f_commit) = false ->
     count_ev is_commit (snd (fetch_run d self query fetch fc commit charset ct [])) = 0%nat)
  /\ (forall d self query fetch fc commit charset ct q r tr,
     fetch_run d self query fetch fc commit charset ct [] = (r, tr) ->
     resolve (option_map Some query) self.(f_query) = Some q ->
     resolve commit self.(f_commit) = true ->
     count_ev is_connect tr = 1%nat -> d_connect d = Ok tt ->
     err_of (d_cursor d) = None -> err_of (d_execute d q) = None ->
     fetch_op_error d (resolve fetch self.(f_fetch)) (resolve fc self.(f_fetch_count)) = None ->
     count_ev is_commit tr = 1%nat /\ before is_execute is_commit tr = true
     /\ before is_fetch is_commit tr = true /\ before is_commit is_close tr = true).
Proof.
  split; [|split; [|split]].
  - intros d self query commit charset Hc. rewrite execute_run_split, Hc.
    destruct (resolve (option_map Some query) (ex_query self)) as [[|ch s]|];
      try reflexivity.
    unfold execute_connected, with_cursor, bind, ret, raise, try_except, call.
    split_goal; reflexivity.
  - intros d self query commit charset q r tr H Hq Hc Hn Hconn Hcur Hex.
    rewrite execute_run_split, Hq, Hc in H. destruct q as [|ch s].
    + injection H as _ <-. discriminate Hn.
    + destruct (d_cursor d) eqn:?; [|discriminate Hcur].
      destruct (d_execute d (String ch s)) eqn:?; [|discriminate Hex].
      revert H.
      unfold execute_connected, with_cursor, bind, ret, raise, try_except, call.
      split_goal; intro H; injection H as _ <-; repeat split.
  - intros d self query fetch fc commit charset ct Hc. rewrite fetch_run_split, Hc.
    destruct (fetch_checks self query fetch ct) as [e|[q c]]; try reflexivity.
    unfold fetch_connected, with_cursor, bind, ret, raise, try_except, call.
    split_goal; reflexivity.
  - intros d self query fetch fc commit charset ct q r tr H Hq Hc Hn Hconn Hcur Hex Hf.
    rewrite fetch_run_split, Hc in H.
    destruct (fetch_checks self query fetch ct) as [e|[q' c]] eqn:Hck.
    + injection H as _ <-. discriminate Hn.
    + apply fetch_checks_ok in Hck as [Hq' _]. rewrite Hq in Hq'.
      injection Hq' as <-.
      destruct (d_cursor d) eqn:?; [|discriminate Hcur].
      destruct (d_execute d q) eqn:?; [|discriminate Hex].
      revert H Hf. unfold fetch_op_error.
      unfold fetch_connected, with_cursor, bind, ret, raise, try_except, call.
      split_goal; intros H Hf; try discriminate Hf; injection H as _ <-; repeat split.
Qed.

Lemma commit_once_between_execute_and_close_witness :
  count_ev is_commit (snd (execute_run ok_driver exec_task (Some "DELETE FROM t") None None []))
    = 0%nat
  /\ count_ev is_commit
       (snd (execute_run ok_driver exec_task (Some "DELETE FROM t") (Some true) None []))
     = 1%nat
  /\ count_ev is_commit
       (snd (fetch_run ok_driver fetch_task (Some "SELECT id FROM t") (Some "all") None None
               None None []))
     = 0%nat
  /\ before is_fetch is_commit
       (snd (fetch_run ok_driver fetch_task (Some "SELECT id FROM t") (Some "all") None
               (Some true) None None []))
     = true.
Proof.
  destruct commit_once_between_execute_and_close as [H1 [H2 [H3 H4]]].
  split; [apply H1; reflexivity|].
  split.
  { apply (H2 ok_driver exec_task (Some "DELETE FROM t") (Some true) None "DELETE FROM t"
             (fst (execute_run ok_driver exec_task (Some "DELETE FROM t") (Some true) None []))
             (snd (execute_run ok_driver exec_task (Some "DELETE FROM t") (Some true) None [])));
      reflexivity. }
  split; [apply H3; reflexivity|].
  apply (H4 ok_driver fetch_task (Some "SELECT id FROM t") (Some "all") None (Some true) None None
           "SELECT id FROM t"
           (fst (fetch_run ok_driver fetch_task (Some "SELECT id FROM t") (Some "all") None
                   (Some true) None None []))
           (snd (fetch_run ok_driver fetch_task (Some "SELECT id FROM t") (Some "all") None
                   (Some true) None None [])));
    reflexivity.
Defined.

(** C8, counterexample.  When [conn.close()] raises on the success path of
    [MySQLExecute.run], the [except] clause calls [conn.close()] a second
    time: in a call that opened the connection, close is invoked twice, and
    the exception of the second call leaves [run] with no debug log. *)
Lemma close_called_twice_counterexample :
  execute_run close_fail_driver exec_task (Some "SELECT 1") None None []
  = (Raise (DriverError "InterfaceError"),
     [EvConnect "localhost" "user" "pw" "db" "utf8mb4" 3306 None; EvCursor;
      EvExecute "SELECT 1"; EvCursorClose; EvClose; EvClose])
  /\ count_ev is_connect
       (snd (execute_run close_fail_driver exec_task (Some "SELECT 1") None None [])) = 1%nat
  /\ count_ev is_close
       (snd (execute_run close_fail_driver exec_task (Some "SELECT 1") None None [])) = 2%nat
  /\ count_ev is_debug
       (snd (execute_run close_fail_driver exec_task (Some "SELECT 1") None None [])) = 0%nat.
Proof. repeat split; reflexivity. Qed.

(** C8.  For both tasks, in every call that opened a connection and whose
    [conn.close()] does not raise, [conn.close()] is called exactly once, on
    the success path and on every failure path, [cursor.close()] raising or
    not.  On success no driver call raised.  On failure the task raises the
    exception object of a driver call, unwrapped, and its last act is to log
    it with [logging.debug] after the close: either the only driver call that
    raised, or, when [cursor.close()] raised while the cursor was released
    after an earlier exception [e0], the exception of [cursor.close()], which
    replaces [e0]. *)
Theorem close_once_and_reraise :
  (forall d self query commit charset r tr,
     execute_run d self query commit charset [] = (r, tr) ->
     count_ev is_connect tr = 1%nat -> d_connect d = Ok tt -> d_close d = Ok tt ->
     count_ev is_close tr = 1%nat
     /\ match r with
        | Ok _ => failures d tr = []
        | Raise e => (failures d tr = [e]
                      \/ exists e0, failures d tr = [e0; e] /\ d_cursor_close d = Raise e)
                     /\ before is_close is_debug tr = true
                     /\ last_event tr = Some (EvDebug "Execute Error: %s" (LErr e))
        end)
  /\ (forall d self query fetch fc commit charset ct r tr,
     fetch_run d self query fetch fc commit charset ct [] = (r, tr) ->
     count_ev is_connect tr = 1%nat -> d_connect d = Ok tt -> d_close d = Ok tt ->
     count_ev is_close tr = 1%nat
     /\ match r with
        | Ok _ => failures d tr = []
        | Raise e => (failures d tr = [e]
                      \/ exists e0, failures d tr = [e0; e] /\ d_cursor_close d = Raise e)
                     /\ before is_close is_debug tr = true
                     /\ last_event tr = Some (EvDebug "Fetch Error: %s" (LErr e))
        end).
Proof.
  split.
  - intros d self query commit charset r tr H Hn Hconn Hcl.
    rewrite execute_run_split in H.
    destruct (resolve (option_map Some query) (ex_query self)) as [[|ch s]|];
      try (injection H as _ <-; discriminate Hn).
    revert H.
    unfold execute_connected, with_cursor, bind, ret, raise, try_except, call.
    split_goal; intro H; injection H as Hr Htr; subst tr; try discriminate Hr;
      try (injection Hr as Hr; subst); unfold failures; simpl;
      rewrite_outcomes; unfold last_event; simpl; repeat split;
      subst; first [ congruence | left; congruence | right; eexists; split; [reflexivity | congruence] ].
  - intros d self query fetch fc commit charset ct r tr H Hn Hconn Hcl.
    rewrite fetch_run_split in H.
    destruct (fetch_checks self query fetch ct) as [e|[q c]];
      [injection H as _ <-; discriminate Hn|].
    revert H.
    unfold fetch_connected, with_cursor, bind, ret, raise, try_except, call.
    split_goal; intro H; injection H as Hr Htr; subst tr; try discriminate Hr;
      try (injection Hr as Hr; subst); unfold failures; simpl;
      rewrite_outcomes; unfold last_event; simpl; repeat split;
      subst; first [ congruence | left; congruence | right; eexists; split; [reflexivity | congruence] ].
Qed.

Lemma close_once_and_reraise_witness :
  count_ev is_close
    (snd (execute_run exec_fail_driver exec_task (Some "SELEC 1") None None [])) = 1%nat
  /\ count_ev is_close
       (snd (fetch_run ok_driver fetch_task (Some "SELECT 1") None None None None None []))
     = 1%nat.
Proof.
  split.
  - exact (proj1 (proj1 close_once_and_reraise exec_fail_driver exec_task (Some "SELEC 1")
                    None None _ _ (surjective_pairing _) eq_refl eq_refl eq_refl)).
  - exact (proj1 (proj2 close_once_and_reraise ok_driver fetch_task (Some "SELECT 1")
                    None None None None None _ _ (surjective_pairing _)
                    eq_refl eq_refl eq_refl)).
Defined.

(** C9.  [fetch_count] is not validated.  With fetch mode "many", for every
    integer, zero and negative ones included: once the query, the fetch mode
    and the cursor type pass their checks and [pymysql.connect],
    [conn.cursor()] and [cursor.execute] return, [fetchmany] is the one fetch
    call and receives the value as it is, and a returned result is the rows
    it gave.  The value never decides whether, or how, the connection is
    opened: the first driver call is the same for any two values.  With any
    other fetch mode ("one", "all", or an invalid one) the value changes
    neither the result nor the driver calls. *)
Theorem fetch_count_unvalidated :
  (forall d self query fetch fc commit charset ct q r tr,
     fetch_run d self query fetch fc commit charset ct [] = (r, tr) ->
     resolve fetch self.(f_fetch) = "many" ->
     resolve (option_map Some query) self.(f_query) = Some q -> q <> EmptyString ->
     recognized_cursor_type (resolve ct self.(f_cursor_type)) = true ->
     d_connect d = Ok tt -> err_of (d_cursor d) = None -> err_of (d_execute d q) = None ->
     filter is_fetch tr = [EvFetchMany (resolve fc self.(f_fetch_count))]
     /\ match r with
        | Ok v => exists rs, d_fetchmany d (resolve fc self.(f_fetch_count)) = Ok rs
                             /\ v = FRows rs
        | Raise _ => True
        end)
  /\ (forall d self query fetch n1 n2 commit charset ct,
     hd_error (snd (fetch_run d self query fetch (Some n1) commit charset ct []))
     = hd_error (snd (fetch_run d self query fetch (Some n2) commit charset ct [])))
  /\ (forall d self query fetch n1 n2 commit charset ct tr,
     resolve fetch self.(f_fetch) <> "many" ->
     fetch_run d self query fetch (Some n1) commit charset ct tr
     = fetch_run d self query fetch (Some n2) commit charset ct tr).
Proof.
  split; [|split].
  - intros d self query fetch fc commit charset ct q r tr H Hm Hq Hne Hct Hconn Hcur Hex.
    destruct (fetch_checks_recognized self query fetch ct) as [q' [Hq' Hck]].
    + rewrite Hq. destruct q; [contradiction|reflexivity].
    + rewrite Hm. reflexivity.
    + exact Hct.
    + rewrite Hq in Hq'. injection Hq' as <-.
      rewrite fetch_run_split, Hck, Hm in H.
      destruct (d_cursor d) eqn:?; [|discriminate Hcur].
      destruct (d_execute d q) eqn:?; [|discriminate Hex].
      revert H.
      unfold fetch_connected, with_cursor, bind, ret, raise, try_except, call.
      split_goal; intro H; injection H as Hr Htr; subst tr; try discriminate Hr;
        try (injection Hr as Hr; subst); simpl; split; eauto.
  - intros d self query fetch n1 n2 commit charset ct.
    rewrite !fetch_run_split.
    destruct (fetch_checks self query fetch ct) as [e|[q c]]; [reflexivity|].
    unfold fetch_connected, with_cursor, bind, ret, raise, try_except, call.
    destruct (d_connect d); [|reflexivity].
    split_goal; reflexivity.
  - intros d self query fetch n1 n2 commit charset ct tr Hm.
    rewrite !fetch_run_split.
    destruct (fetch_checks self query fetch ct) as [e|[q c]]; [reflexivity|].
    apply String.eqb_neq in Hm. unfold fetch_connected. simpl resolve. rewrite Hm.
    reflexivity.
Qed.

Lemma fetch_count_unvalidated_witness :
  filter is_fetch
    (snd (fetch_run ok_driver fetch_task (Some "SELECT id FROM t") (Some "many") (Some (-3))
            None None None []))
  = [EvFetchMany (-3)]
  /\ fetch_run ok_driver fetch_task (Some "SELECT id FROM t") (Some "all") (Some 0) None None
       None []
     = fetch_run ok_driver fetch_task (Some "SELECT id FROM t") (Some "all") (Some 5) None None
         None [].
Proof.
  split.
  - exact (proj1 (proj1 fetch_count_unvalidated ok_driver fetch_task (Some "SELECT id FROM t")
                    (Some "many") (Some (-3)) None None None "SELECT id FROM t" _ _
                    (surjective_pairing _) eq_refl eq_refl ltac:(discriminate) eq_refl
                    eq_refl eq_refl eq_refl)).
  - apply (proj2 (proj2 fetch_count_unvalidated)). discriminate.
Defined.

(** ** Further properties of the code *)

(** X1.  A successful [MySQLExecute.run] returns the row count that
    [cursor.execute(query)] returned for the resolved query, and its last act
    is to log that count with [logging.debug]. *)
Theorem execute_returns_driver_rowcount :
  forall d self query commit charset q n tr,
    resolve (option_map Some query) self.(ex_query) = Some q ->
    execute_run d self query commit charset [] = (Ok n, tr) ->
    d_execute d q = Ok n
    /\ last_event tr = Some (EvDebug "Execute Results: %s" (LInt n)).
Proof.
  intros d self query commit charset q n tr Hq H.
  rewrite execute_run_split, Hq in H. destruct q as [|ch s]; [discriminate H|].
  revert H. unfold execute_connected, with_cursor, bind, ret, raise, try_except, call.
  split_goal; intro H; injection H as Hr Htr; subst tr; try discriminate Hr;
    try (injection Hr as Hr); subst; unfold last_event; simpl; split; congruence.
Qed.

Lemma execute_returns_driver_rowcount_witness :
  d_execute ok_driver "DELETE FROM t WHERE id=1" = Ok 1
  /\ last_event (snd (execute_run ok_driver exec_task (Some "DELETE FROM t WHERE id=1")
                        (Some true) None []))
     = Some (EvDebug "Execute Results: %s" (LInt 1)).
Proof.
  exact (execute_returns_driver_rowcount ok_driver exec_task (Some "DELETE FROM t WHERE id=1")
           (Some true) None "DELETE FROM t WHERE id=1" 1 _ eq_refl
           (surjective_pairing _)).
Defined.

(** X2.  A successful [MySQLFetch.run] logs the value it returns with
    [logging.debug] as its last act. *)
Theorem fetch_logs_its_result :
  forall d self query fetch fc commit charset ct v tr,
    fetch_run d self query fetch fc commit charset ct [] = (Ok v, tr) ->
    last_event tr = Some (EvDebug "Fetch Results: %s" (LFetch v)).
Proof.
  intros d self query fetch fc commit charset ct v tr H.
  rewrite fetch_run_split in H.
  destruct (fetch_checks self query fetch ct) as [e|[q c]]; [discriminate H|].
  revert H. unfold fetch_connected, with_cursor, bind, ret, raise, try_except, call.
  split_goal; intro H; injection H as Hr Htr; subst tr; try discriminate Hr;
    try (injection Hr as Hr); subst; reflexivity.
Qed.

Lemma fetch_logs_its_result_witness :
  last_event (snd (fetch_run ok_driver fetch_task (Some "SELECT id FROM t") (Some "all") None
                     None None None []))
  = Some (EvDebug "Fetch Results: %s" (LFetch (FRows [sample_row "1"; sample_row "2"]))).
Proof.
  exact (fetch_logs_its_result ok_driver fetch_task (Some "SELECT id FROM t") (Some "all")
           None None None None (FRows [sample_row "1"; sample_row "2"]) _
           (surjective_pairing _)).
Defined.

(** X3.  [pymysql.connect] is called outside the [try] block: when it raises,
    both tasks re-raise its exception with no other call made, in particular
    no [close()] and no debug log. *)
Theorem connect_error_escapes_untouched :
  (forall d self query commit charset e r tr,
     d_connect d = Raise e ->
     execute_run d self query commit charset [] = (r, tr) ->
     count_ev is_connect tr = 1%nat ->
     r = Raise e /\ length tr = 1%nat)
  /\ (forall d self query fetch fc commit charset ct e r tr,
     d_connect d = Raise e ->
     fetch_run d self query fetch fc commit charset ct [] = (r, tr) ->
     count_ev is_connect tr = 1%nat ->
     r = Raise e /\ length tr = 1%nat).
Proof.
  split.
  - intros d self query commit charset e r tr He H Hn.
    rewrite execute_run_split in H.
    destruct (resolve (option_map Some query) (ex_query self)) as [[|ch s]|];
      try (injection H as _ <-; discriminate Hn).
    unfold execute_connected, bind, call in H. rewrite He in H.
    injection H as <- <-. split; reflexivity.
  - intros d self query fetch fc commit charset ct e r tr He H Hn.
    rewrite fetch_run_split in H.
    destruct (fetch_checks self query fetch ct) as [e'|[q c]];
      [injection H as _ <-; discriminate Hn|].
    unfold fetch_connected, bind, call in H. rewrite He in H.
    injection H as <- <-. split; reflexivity.
Qed.

Lemma connect_error_escapes_untouched_witness :
  fst (execute_run connect_fail_driver exec_task (Some "SELECT 1") None None [])
  = Raise (DriverError "OperationalError").
Proof.
  exact (proj1 (proj1 connect_error_escapes_untouched connect_fail_driver exec_task (Some "SELECT 1") None None
                  (DriverError "OperationalError") _ _ eq_refl (surjective_pairing _) eq_refl)).
Defined.

(** X4.  Both tasks connect with the host, user, password, database, charset
    and port stored by the constructor.  [MySQLFetch] connects with one of
    the two built-in cursor classes, whichever [cursor_type] it was given,
    at call time or by the constructor.  Given a query and a valid fetch mode,
    a recognised [cursor_type] always leads to the connection, with the class
    it stands for: a string whose lower-case form is "cursor" gives
    [pymysql.cursors.Cursor], one whose lower-case form is "dictcursor" gives
    [pymysql.cursors.DictCursor], and either class passed itself gives that
    class. *)
Theorem connection_settings :
  (forall d self query commit charset r tr,
     execute_run d self query commit charset [] = (r, tr) ->
     count_ev is_connect tr = 1%nat ->
     hd_error tr = Some (EvConnect (ex_host self) (ex_user self) (ex_password self)
                          (ex_db_name self) (ex_charset self) (ex_port self) None))
  /\ (forall d self query fetch fc commit charset ct r tr,
     fetch_run d self query fetch fc commit charset ct [] = (r, tr) ->
     count_ev is_connect tr = 1%nat ->
     exists c, (c = CCursor \/ c = CDictCursor)
       /\ hd_error tr = Some (EvConnect (f_host self) (f_user self) (f_password self)
                                (f_db_name self) (f_charset self) (f_port self) (Some c)))
  /\ (forall d self query fetch fc commit charset ct,
     query_missing (resolve (option_map Some query) self.(f_query)) = false ->
     fetch_in_set (resolve fetch self.(f_fetch)) = true ->
     recognized_cursor_type (resolve ct self.(f_cursor_type)) = true ->
     hd_error (snd (fetch_run d self query fetch fc commit charset ct []))
     = Some (EvConnect (f_host self) (f_user self) (f_password self) (f_db_name self)
               (f_charset self) (f_port self)
               (Some (expected_cursor_class (resolve ct self.(f_cursor_type)))))).
Proof.
  split; [|split].
  - intros d self query commit charset r tr H Hn.
    rewrite execute_run_split in H.
    destruct (resolve (option_map Some query) (ex_query self)) as [[|ch s]|];
      try (injection H as _ <-; discriminate Hn).
    revert H. unfold execute_connected, with_cursor, bind, ret, raise, try_except, call.
    split_goal; intro H; injection H as _ <-; reflexivity.
  - intros d self query fetch fc commit charset ct r tr H Hn.
    rewrite fetch_run_split in H.
    destruct (fetch_checks self query fetch ct) as [e|[q c]] eqn:Hck;
      [injection H as _ <-; discriminate Hn|].
    exists c. split; [exact (fetch_checks_class _ _ _ _ _ _ Hck)|].
    revert H. unfold fetch_connected, with_cursor, bind, ret, raise, try_except, call.
    split_goal; intro H; injection H as _ <-; reflexivity.
  - intros d self query fetch fc commit charset ct Hq Hf Hc.
    destruct (fetch_checks_recognized self query fetch ct Hq Hf Hc) as [q [_ Hck]].
    rewrite fetch_run_split, Hck.
    unfold fetch_connected, with_cursor, bind, ret, raise, try_except, call.
    split_goal; reflexivity.
Qed.

Lemma connection_settings_witness :
  hd_error (snd (fetch_run ok_driver fetch_task (Some "SELECT 1") None None None None
                   (Some (CTStr "DictCursor")) []))
  = Some (EvConnect "localhost" "user" "pw" "db" "utf8mb4" 3306 (Some CDictCursor))
  /\ hd_error (snd (fetch_run ok_driver fetch_task (Some "SELECT 1") None None None None
                      (Some (CTCall CDictCursor)) []))
     = Some (EvConnect "localhost" "user" "pw" "db" "utf8mb4" 3306 (Some CDictCursor))
  /\ hd_error (snd (fetch_run ok_driver fetch_task (Some "SELECT 1") None None None None
                      None []))
     = Some (EvConnect "localhost" "user" "pw" "db" "utf8mb4" 3306 (Some CCursor)).
Proof.
  split; [|split].
  - exact (proj2 (proj2 connection_settings) ok_driver fetch_task (Some "SELECT 1") None None
             None None (Some (CTStr "DictCursor")) eq_refl eq_refl eq_refl).
  - exact (proj2 (proj2 connection_settings) ok_driver fetch_task (Some "SELECT 1") None None
             None None (Some (CTCall CDictCursor)) eq_refl eq_refl eq_refl).
  - exact (proj2 (proj2 connection_settings) ok_driver fetch_task (Some "SELECT 1") None None
             None None None eq_refl eq_refl eq_refl).
Defined.

(** X5.  Both tasks send the resolved query text to [cursor.execute] as it
    is, at most once; it is sent whenever [conn.cursor()] was called and
    returned. *)
Theorem query_sent_verbatim :
  (forall d self query commit charset q r tr,
     resolve (option_map Some query) self.(ex_query) = Some q ->
     execute_run d self query commit charset [] = (r, tr) ->
     (filter is_execute tr = [] \/ filter is_execute tr = [EvExecute q])
     /\ (count_ev is_cursor tr = 1%nat -> d_cursor d = Ok tt ->
         filter is_execute tr = [EvExecute q]))
  /\ (forall d self query fetch fc commit charset ct q r tr,
     resolve (option_map Some query) self.(f_query) = Some q ->
     fetch_run d self query fetch fc commit charset ct [] = (r, tr) ->
     (filter is_execute tr = [] \/ filter is_execute tr = [EvExecute q])
     /\ (count_ev is_cursor tr = 1%nat -> d_cursor d = Ok tt ->
         filter is_execute tr = [EvExecute q])).
Proof.
  split.
  - intros d self query commit charset q r tr Hq H.
    rewrite execute_run_split, Hq in H. destruct q as [|ch s].
    + injection H as _ <-. split; [left; reflexivity|discriminate].
    + revert H. unfold execute_connected, with_cursor, bind, ret, raise, try_except, call.
      split_goal; intro H; injection H as _ <-; simpl;
        (split; [auto|intros; try discriminate; try reflexivity]).
  - intros d self query fetch fc commit charset ct q r tr Hq H.
    rewrite fetch_run_split in H.
    destruct (fetch_checks self query fetch ct) as [e|[q' c]] eqn:Hck.
    + injection H as _ <-. split; [left; reflexivity|discriminate].
    + apply fetch_checks_ok in Hck as [Hq' _]. rewrite Hq in Hq'. injection Hq' as <-.
      revert H. unfold fetch_connected, with_cursor, bind, ret, raise, try_except, call.
      split_goal; intro H; injection H as _ <-; simpl;
        (split; [auto|intros; try discriminate; try reflexivity]).
Qed.

Lemma query_sent_verbatim_witness :
  filter is_execute
    (snd (execute_run ok_driver exec_task (Some "DELETE FROM t WHERE id=1") None None []))
  = [EvExecute "DELETE FROM t WHERE id=1"].
Proof.
  exact (proj2 (proj1 query_sent_verbatim ok_driver exec_task
                  (Some "DELETE FROM t WHERE id=1") None None "DELETE FROM t WHERE id=1" _ _
                  eq_refl (surjective_pairing _)) eq_refl eq_refl).
Defined.

(** X6.  Tasks built with the constructors' defaults and run with only a
    non-empty query connect to port 3306 with charset "utf8mb4" and never
    commit; [MySQLFetch] then connects with [pymysql.cursors.Cursor] and makes
    at most one fetch call, [fetchone()]. *)
Theorem default_construction :
  (forall d db user pw host q r tr,
     q <> EmptyString ->
     execute_run d (mk_execute db user pw host) (Some q) None None [] = (r, tr) ->
     hd_error tr = Some (EvConnect host user pw db "utf8mb4" 3306 None)
     /\ count_ev is_commit tr = 0%nat)
  /\ (forall d db user pw host q r tr,
     q <> EmptyString ->
     fetch_run d (mk_fetch db user pw host) (Some q) None None None None None [] = (r, tr) ->
     hd_error tr = Some (EvConnect host user pw db "utf8mb4" 3306 (Some CCursor))
     /\ count_ev is_commit tr = 0%nat
     /\ (filter is_fetch tr = [] \/ filter is_fetch tr = [EvFetchOne])).
Proof.
  split.
  - intros d db user pw host q r tr Hq H.
    destruct q as [|ch s]; [contradiction|]. revert H.
    unfold execute_run, with_cursor, bind, ret, raise, try_except, call. simpl.
    split_goal; intro H; injection H as _ <-; split; reflexivity.
  - intros d db user pw host q r tr Hq H.
    destruct q as [|ch s]; [contradiction|]. revert H.
    unfold fetch_run, with_cursor, bind, ret, raise, try_except, call. simpl.
    split_goal; intro H; injection H as _ <-; repeat split; auto.
Qed.

Lemma default_construction_witness :
  count_ev is_commit
    (snd (fetch_run ok_driver (mk_fetch "db" "u" "p" "h") (Some "SELECT 1") None None None None
            None []))
  = 0%nat.
Proof.
  exact (proj1 (proj2 (proj2 default_construction ok_driver "db" "u" "p" "h" "SELECT 1" _ _
                         ltac:(discriminate) (surjective_pairing _)))).
Defined.

(** X7.  The [with conn.cursor()] block releases the cursor: whenever
    [conn.cursor()] was called and returned, [cursor.close()] is called
    exactly once, on every path, and before [conn.close()]. *)
Theorem cursor_released_once :
  (forall d self query commit charset r tr,
     execute_run d self query commit charset [] = (r, tr) ->
     count_ev is_cursor tr = 1%nat -> d_cursor d = Ok tt ->
     count_ev is_cursor_close tr = 1%nat /\ before is_cursor_close is_close tr = true)
  /\ (forall d self query fetch fc commit charset ct r tr,
     fetch_run d self query fetch fc commit charset ct [] = (r, tr) ->
     count_ev is_cursor tr = 1%nat -> d_cursor d = Ok tt ->
     count_ev is_cursor_close tr = 1%nat /\ before is_cursor_close is_close tr = true).
Proof.
  split.
  - intros d self query commit charset r tr H Hn Hc.
    rewrite execute_run_split in H.
    destruct (resolve (option_map Some query) (ex_query self)) as [[|ch s]|];
      try (injection H as _ <-; discriminate Hn).
    revert H Hn. unfold execute_connected, with_cursor, bind, ret, raise, try_except, call.
    split_goal; intros H Hn; injection H as _ <-; try discriminate Hn; split; reflexivity.
  - intros d self query fetch fc commit charset ct r tr H Hn Hc.
    rewrite fetch_run_split in H.
    destruct (fetch_checks self query fetch ct) as [e|[q c]];
      [injection H as _ <-; discriminate Hn|].
    revert H Hn. unfold fetch_connected, with_cursor, bind, ret, raise, try_except, call.
    split_goal; intros H Hn; injection H as _ <-; try discriminate Hn; split; reflexivity.
Qed.

Lemma cursor_released_once_witness :
  count_ev is_cursor_close
    (snd (execute_run exec_fail_driver exec_task (Some "SELEC 1") None None []))
  = 1%nat.
Proof.
  exact (proj1 (proj1 cursor_released_once exec_fail_driver exec_task (Some "SELEC 1") None None
                  _ _ (surjective_pairing _) eq_refl eq_refl)).
Defined.

(** X8.  Nothing is committed after a failed statement: when [cursor.execute]
    raises, neither task calls [commit()] (and [MySQLFetch] makes no fetch
    call); when the selected fetch call raises, [MySQLFetch] does not call
    [commit()]. *)
Theorem no_commit_after_failure :
  (forall d self query commit charset q e r tr,
     resolve (option_map Some query) self.(ex_query) = Some q ->
     d_execute d q = Raise e ->
     execute_run d self query commit charset [] = (r, tr) ->
     count_ev is_commit tr = 0%nat)
  /\ (forall d self query fetch fc commit charset ct q e r tr,
     resolve (option_map Some query) self.(f_query) = Some q ->
     d_execute d q = Raise e ->
     fetch_run d self query fetch fc commit charset ct [] = (r, tr) ->
     count_ev is_fetch tr = 0%nat /\ count_ev is_commit tr = 0%nat)
  /\ (forall d self query fetch fc commit charset ct e r tr,
     fetch_op_error d (resolve fetch self.(f_fetch)) (resolve fc self.(f_fetch_count))
       = Some e ->
     fetch_run d self query fetch fc commit charset ct [] = (r, tr) ->
     count_ev is_commit tr = 0%nat).
Proof.
  split; [|split].
  - intros d self query commit charset q e r tr Hq He H.
    rewrite execute_run_split, Hq in H. destruct q as [|ch s].
    + injection H as _ <-. reflexivity.
    + revert H. unfold execute_connected, with_cursor, bind, ret, raise, try_except, call.
      split_goal; intro H; injection H as _ <-; reflexivity.
  - intros d self query fetch fc commit charset ct q e r tr Hq He H.
    rewrite fetch_run_split in H.
    destruct (fetch_checks self query fetch ct) as [e'|[q' c]] eqn:Hck.
    + injection H as _ <-. split; reflexivity.
    + apply fetch_checks_ok in Hck as [Hq' _]. rewrite Hq in Hq'. injection Hq' as <-.
      revert H. unfold fetch_connected, with_cursor, bind, ret, raise, try_except, call.
      split_goal; intro H; injection H as _ <-; split; reflexivity.
  - intros d self query fetch fc commit charset ct e r tr Hf H.
    rewrite fetch_run_split in H.
    destruct (fetch_checks self query fetch ct) as [e'|[q c]];
      [injection H as _ <-; reflexivity|].
    revert H Hf. unfold fetch_op_error.
    unfold fetch_connected, with_cursor, bind, ret, raise, try_except, call.
    split_goal; intros H Hf; injection H as _ <-; try discriminate Hf; reflexivity.
Qed.

Lemma no_commit_after_failure_witness :
  count_ev is_commit
    (snd (execute_run exec_fail_driver exec_task (Some "SELEC 1") (Some true) None []))
  = 0%nat.
Proof.
  exact (proj1 no_commit_after_failure exec_fail_driver exec_task (Some "SELEC 1") (Some true)
           None "SELEC 1" (DriverError "ProgrammingError") _ _ eq_refl eq_refl
           (surjective_pairing _)).
Defined.
